(** * createReactElement: a shallow embedding of the render function

    Source: src/src/create/createReactElement.ts.

    [createReactElement tag computeClassName propsToFilter] returns a
    [forwardRef] component whose render function, given the incoming
    properties and the forwarded ref,
      1. calls [computeClassName(props)] on the full property object,
      2. copies every own key of [props] that does not start with "$" and
         is not listed in [propsToFilter] into a fresh object [domProps],
      3. merges the computed class string with [domProps.className || ""]
         via [[a, b].filter(Boolean).join(" ").trim()],
      4. calls [createElement(tag, {...domProps, className, ref})].

    JavaScript objects are association lists with the semantics of
    property assignment (an existing key is overwritten in place, a new
    key is appended).  Strings are byte strings; [trim] removes the ASCII
    white space of ECMAScript's WhiteSpace and LineTerminator sets.  The
    compute function runs in a state-and-exception monad over an
    arbitrary world [W], so that its effects and exceptions can be
    observed through the render. *)

From Stdlib Require Import String Ascii List Bool ZArith Lia.
From Stdlib Require Import DecimalString DecimalPos.
Import ListNotations.
Open Scope bool_scope.
Open Scope string_scope.

(** ** JavaScript values *)

Inductive value : Type :=
| VUndef
| VNull
| VBool (b : bool)
| VNum (n : Z)
| VStr (s : string)
| VObj (id : nat).   (* objects and functions, by identity *)

(** [Boolean(v)]: the truthiness used by [||] and [filter(Boolean)]. *)
Definition truthy (v : value) : bool :=
  match v with
  | VUndef | VNull => false
  | VBool b => b
  | VNum n => negb (Z.eqb n 0)
  | VStr s => negb (String.eqb s "")
  | VObj _ => true
  end.

Definition number_to_string (n : Z) : string :=
  NilEmpty.string_of_int (Z.to_int n).

(** [ToString(v)]. *)
Definition js_to_string (v : value) : string :=
  match v with
  | VUndef => "undefined"
  | VNull => "null"
  | VBool true => "true"
  | VBool false => "false"
  | VNum n => number_to_string n
  | VStr s => s
  | VObj _ => "[object Object]"
  end.

(** ** Strings: [join], [trim], [startsWith] *)

(** [Array.prototype.join(sep)]: [undefined] and [null] become "". *)
Definition join_elem (v : value) : string :=
  match v with
  | VUndef | VNull => ""
  | _ => js_to_string v
  end.

Fixpoint join (sep : string) (l : list value) : string :=
  match l with
  | [] => ""
  | [x] => join_elem x
  | x :: xs => String.append (join_elem x) (String.append sep (join sep xs))
  end.

Definition is_ws (c : ascii) : bool :=
  match nat_of_ascii c with
  | 9 | 10 | 11 | 12 | 13 | 32 => true
  | _ => false
  end.

Fixpoint trim_start (s : string) : string :=
  match s with
  | EmptyString => EmptyString
  | String c s' => if is_ws c then trim_start s' else s
  end.

Fixpoint trim_end (s : string) : string :=
  match s with
  | EmptyString => EmptyString
  | String c s' =>
      match trim_end s' with
      | EmptyString => if is_ws c then EmptyString else String c EmptyString
      | t => String c t
      end
  end.

(** [String.prototype.trim]. *)
Definition trim (s : string) : string := trim_end (trim_start s).

(** [key.startsWith("$")]. *)
Definition startsWith (prefix key : string) : bool := String.prefix prefix key.

(** [propsToFilter.includes(key)]. *)
Definition includes (l : list string) (key : string) : bool :=
  existsb (String.eqb key) l.

(** ** Objects *)

Definition obj := list (string * value).

Definition keys (o : obj) : list string := map fst o.

Fixpoint obj_get (o : obj) (k : string) : option value :=
  match o with
  | [] => None
  | (k', v) :: o' => if String.eqb k k' then Some v else obj_get o' k
  end.

(** [o[k]]: a missing key reads as [undefined]. *)
Definition obj_read (o : obj) (k : string) : value :=
  match obj_get o k with Some v => v | None => VUndef end.

(** [o[k] = v]. *)
Fixpoint obj_set (o : obj) (k : string) (v : value) : obj :=
  match o with
  | [] => [(k, v)]
  | (k', v') :: o' =>
      if String.eqb k k' then (k', v) :: o' else (k', v') :: obj_set o' k v
  end.

(** [{...o}] followed by further assignments starts from a copy of [o]. *)
Definition spread (o : obj) : obj :=
  fold_left (fun acc kv => obj_set acc (fst kv) (snd kv)) o [].

(** ** The state-and-exception monad of the render *)

Inductive result (A : Type) : Type :=
| Ok (a : A)
| Throw (e : value).
Arguments Ok {A} a.
Arguments Throw {A} e.

Definition M (W A : Type) : Type := W -> result A * W.

Definition ret {W A} (a : A) : M W A := fun w => (Ok a, w).

Definition bind {W A B} (m : M W A) (k : A -> M W B) : M W B :=
  fun w =>
    match m w with
    | (Ok a, w') => k a w'
    | (Throw e, w') => (Throw e, w')
    end.

Notation "x <- m ;; k" := (bind m (fun x => k))
  (at level 61, m at next level, right associativity).

(** ** React *)

Inductive tag_t : Type :=
| Intrinsic (name : string)   (* keyof JSX.IntrinsicElements *)
| Component (id : nat).       (* JSXElementConstructor *)

Record element : Type := mkElement { el_type : tag_t; el_props : obj }.

(** [createElement(tag, config)]. *)
Definition createElement (tag : tag_t) (config : obj) : element :=
  mkElement tag config.

(** A [forwardRef] component: React calls [render] with the properties
    (without [ref] and [key]) and the forwarded ref, [null] when the
    caller supplied none. *)
Record forwardRef_component (W : Type) : Type :=
  forwardRef { render : obj -> value -> M W element }.
Arguments forwardRef {W} render.
Arguments render {W} f _ _ _.

(** ** createReactElement *)

Section CreateReactElement.
Context {W : Type}.
Variable tag : tag_t.
Variable computeClassName : obj -> M W string.
Variable propsToFilter : list string.

(** Lines 31-35: the filter loop body for one key. *)
Definition keep (key : string) : bool :=
  negb (startsWith "$" key) && negb (includes propsToFilter key).

Definition filter_step (props : obj) (domProps : obj) (key : string) : obj :=
  if keep key then obj_set domProps key (obj_read props key) else domProps.

Definition filter_props (props : obj) : obj :=
  fold_left (filter_step props) (keys props) [].

(** Lines 38-39. *)
Definition merge_class (computedClassName : string) (domProps : obj) : string :=
  let incomingClassName :=
    let v := obj_read domProps "className" in
    if truthy v then v else VStr "" in
  trim (join " " (filter truthy [VStr computedClassName; incomingClassName])).

(** Lines 41-45. *)
Definition element_config (domProps : obj) (finalClassName : string)
    (ref : value) : obj :=
  obj_set (obj_set (spread domProps) "className" (VStr finalClassName)) "ref" ref.

Definition render_fn (props : obj) (ref : value) : M W element :=
  computedClassName <- computeClassName props ;;
  let domProps := filter_props props in
  let finalClassName := merge_class computedClassName domProps in
  ret (createElement tag (element_config domProps finalClassName ref)).

End CreateReactElement.

Definition createReactElement {W} (tag : tag_t) (computeClassName : obj -> M W string)
    (propsToFilter : list string) : forwardRef_component W :=
  forwardRef (render_fn tag computeClassName propsToFilter).

Example scenario_text_lg :
  let f := fun (p : obj) => ret (W := unit)
    (String.append "text-lg mt-5 "
       (if truthy (obj_read p "$active") then "bg-blue" else "bg-red")) in
  fst (render (createReactElement (Intrinsic "button") f [])
         [("$active", VBool true); ("className", VStr "extra")] VNull tt)
  = Ok (mkElement (Intrinsic "button")
          [("className", VStr "text-lg mt-5 bg-blue extra"); ("ref", VNull)]).
Proof. reflexivity. Qed.

(** ** Rendering an element whose type is a component

    React's [createElement(type, config)] keeps [config.ref] apart (an
    [undefined] ref becomes [null]) and hands the component the remaining
    entries of [config] minus the reserved names [key], [ref], [__self]
    and [__source].  This is how a component built by
    [createReactElement] renders one that it wraps. *)

Definition react_reserved (k : string) : bool :=
  includes ["key"; "ref"; "__self"; "__source"] k.

Definition element_render_props (el : element) : obj :=
  filter (fun kv => negb (react_reserved (fst kv))) (el_props el).

Definition element_ref (el : element) : value :=
  match obj_get (el_props el) "ref" with
  | None | Some VUndef => VNull
  | Some v => v
  end.

Definition render_element {W} (c : forwardRef_component W) (el : element) : M W element :=
  render c (element_render_props el) (element_ref el).

(** ** postbuild.js

    The build script patches [./dist/index.d.ts] and removes
    [./dist/types].  The file system is a list of (path, content) pairs;
    directories are the path prefixes ending in "/".  The state also
    records what [console.log] printed. *)


Fixpoint str_drop (n : nat) (s : string) : string :=
  match n, s with
  | O, _ => s
  | S n', EmptyString => EmptyString
  | S n', String _ s' => str_drop n' s'
  end.

(** [s.replace(/pat/, rep)] for a regular expression that matches the
    literal text [pat] and a replacement without "$" patterns: the first
    occurrence of [pat] is replaced. *)
Fixpoint replace_first (pat rep s : string) : string :=
  if String.prefix pat s then String.append rep (str_drop (String.length pat) s)
  else match s with
       | EmptyString => EmptyString
       | String c s' => String c (replace_first pat rep s')
       end.








Definition decl_pat := "declare const _default:".
Definition decl_rep := "declare const rsc:".
Definition export_pat := "export { type RscBaseComponent, _default as default };".
Definition export_rep := "export { type RscBaseComponent }; export default rsc;".

(** Lines 11-12. *)
Definition patch_content (content : string) : string :=
  replace_first export_pat export_rep (replace_first decl_pat decl_rep content).


(** ** Lemmas on objects *)

Lemma obj_get_set o k v k' :
  obj_get (obj_set o k v) k' = if String.eqb k' k then Some v else obj_get o k'.
Proof.
  induction o as [|[k0 v0] o IH]; simpl.
  - reflexivity.
  - destruct (String.eqb_spec k k0) as [->|Hne]; simpl.
    + destruct (String.eqb k' k0); reflexivity.
    + rewrite IH.
      destruct (String.eqb_spec k' k0) as [->|]; [|reflexivity].
      destruct (String.eqb_spec k0 k) as [->|]; [congruence|reflexivity].
Qed.

Lemma in_keys_set o k v x :
  In x (keys (obj_set o k v)) <-> x = k \/ In x (keys o).
Proof.
  induction o as [|[k0 v0] o IH]; simpl.
  - split; intros [H|[]]; left; congruence.
  - destruct (String.eqb_spec k k0) as [->|Hne]; simpl.
    + split; [intros H; right; exact H|intros [->|H]; [left; reflexivity|exact H]].
    + rewrite IH. tauto.
Qed.

Lemma nodup_keys_set o k v :
  NoDup (keys o) -> NoDup (keys (obj_set o k v)).
Proof.
  induction o as [|[k0 v0] o IH]; simpl; intros Hnd.
  - constructor; [intros []|constructor].
  - inversion Hnd as [|? ? Hnin Hnd']; subst.
    destruct (String.eqb_spec k k0) as [->|Hne]; simpl.
    + constructor; assumption.
    + constructor; [|auto].
      rewrite in_keys_set. intros [->|]; [congruence|contradiction].
Qed.

Lemma obj_get_None_keys o k :
  obj_get o k = None <-> ~ In k (keys o).
Proof.
  induction o as [|[k0 v0] o IH]; simpl.
  - tauto.
  - destruct (String.eqb_spec k k0) as [->|Hne].
    + split; [discriminate|tauto].
    + rewrite IH. intuition congruence.
Qed.

Lemma existsb_keys o k :
  existsb (String.eqb k) (keys o) =
  match obj_get o k with Some _ => true | None => false end.
Proof.
  induction o as [|[k0 v0] o IH]; simpl; [reflexivity|].
  destruct (String.eqb k k0); [reflexivity|exact IH].
Qed.

Lemma obj_get_spread_acc o acc k :
  NoDup (keys o) ->
  obj_get (fold_left (fun acc kv => obj_set acc (fst kv) (snd kv)) o acc) k =
  match obj_get o k with Some v => Some v | None => obj_get acc k end.
Proof.
  revert acc. induction o as [|[k0 v0] o IH]; intros acc Hnd; simpl; [reflexivity|].
  inversion Hnd as [|? ? Hnin Hnd']; subst.
  rewrite (IH _ Hnd'), obj_get_set.
  destruct (String.eqb_spec k k0) as [->|Hne].
  - apply obj_get_None_keys in Hnin. rewrite Hnin. reflexivity.
  - destruct (obj_get o k); reflexivity.
Qed.

Lemma obj_get_spread o k :
  NoDup (keys o) -> obj_get (spread o) k = obj_get o k.
Proof.
  intros Hnd. unfold spread. rewrite (obj_get_spread_acc _ _ _ Hnd).
  destruct (obj_get o k); reflexivity.
Qed.

Lemma nodup_keys_spread_acc o acc :
  NoDup (keys acc) ->
  NoDup (keys (fold_left (fun acc kv => obj_set acc (fst kv) (snd kv)) o acc)).
Proof.
  revert acc. induction o as [|[k0 v0] o IH]; intros acc Hnd; simpl; [exact Hnd|].
  apply IH, nodup_keys_set, Hnd.
Qed.

(** ** Lemmas on the filter loop *)

Section Filter.
Variable propsToFilter : list string.
Variable props : obj.

Lemma obj_get_filter_fold l acc k :
  obj_get (fold_left (filter_step propsToFilter props) l acc) k =
  if keep propsToFilter k && existsb (String.eqb k) l
  then Some (obj_read props k) else obj_get acc k.
Proof.
  revert acc. induction l as [|key l IH]; intros acc; simpl.
  - rewrite andb_false_r. reflexivity.
  - rewrite IH. unfold filter_step.
    destruct (String.eqb_spec k key) as [->|Hne]; simpl.
    + rewrite ?String.eqb_refl. simpl.
      destruct (keep propsToFilter key); simpl; [|reflexivity].
      rewrite obj_get_set, String.eqb_refl.
      destruct (existsb (String.eqb key) l); reflexivity.
    + destruct (keep propsToFilter k && existsb (String.eqb k) l); [reflexivity|].
      destruct (keep propsToFilter key); [|reflexivity].
      rewrite obj_get_set. destruct (String.eqb_spec k key); [congruence|reflexivity].
Qed.

(** [domProps[k]] is [props[k]] for a kept key and absent otherwise. *)
Lemma obj_get_filter_props k :
  obj_get (filter_props propsToFilter props) k =
  if keep propsToFilter k then obj_get props k else None.
Proof.
  unfold filter_props. rewrite obj_get_filter_fold, existsb_keys. simpl.
  unfold obj_read.
  destruct (keep propsToFilter k), (obj_get props k); reflexivity.
Qed.

Lemma nodup_keys_filter_fold l acc :
  NoDup (keys acc) ->
  NoDup (keys (fold_left (filter_step propsToFilter props) l acc)).
Proof.
  revert acc. induction l as [|key l IH]; intros acc Hnd; simpl; [exact Hnd|].
  apply IH. unfold filter_step. destruct (keep propsToFilter key);
    [apply nodup_keys_set|]; exact Hnd.
Qed.

Lemma nodup_keys_filter_props : NoDup (keys (filter_props propsToFilter props)).
Proof. apply nodup_keys_filter_fold. constructor. Qed.

End Filter.

(** The object handed to [createElement]. *)
Lemma obj_get_element_config d fc ref k :
  NoDup (keys d) ->
  obj_get (element_config d fc ref) k =
  if String.eqb k "ref" then Some ref
  else if String.eqb k "className" then Some (VStr fc)
  else obj_get d k.
Proof.
  intros Hnd. unfold element_config. rewrite !obj_get_set, obj_get_spread by exact Hnd.
  reflexivity.
Qed.

Lemma nodup_keys_element_config d fc ref :
  NoDup (keys (element_config d fc ref)).
Proof.
  unfold element_config. apply nodup_keys_set, nodup_keys_set.
  apply nodup_keys_spread_acc. constructor.
Qed.

(** The render, once [computeClassName] has returned. *)
Lemma render_Ok {W} tag (f : obj -> M W string) filt props ref w s w' :
  f props w = (Ok s, w') ->
  render (createReactElement tag f filt) props ref w =
  (Ok (mkElement tag (element_config (filter_props filt props)
        (merge_class s (filter_props filt props)) ref)), w').
Proof. intros Hf. simpl. unfold render_fn, bind. rewrite Hf. reflexivity. Qed.

(** The render, once [computeClassName] has thrown. *)
Lemma render_Throw {W} tag (f : obj -> M W string) filt props ref w e w' :
  f props w = (Throw e, w') ->
  render (createReactElement tag f filt) props ref w = (Throw e, w').
Proof. intros Hf. simpl. unfold render_fn, bind. rewrite Hf. reflexivity. Qed.

(** ** Class tokens

    [words s] is the list of white-space separated tokens of [s], the
    class names a browser reads from a [class] attribute. *)

Definition flush (w : string) : list string :=
  match w with EmptyString => [] | _ => [w] end.

Fixpoint words_from (w : string) (s : string) : list string :=
  match s with
  | EmptyString => flush w
  | String c s' =>
      if is_ws c then app (flush w) (words_from EmptyString s')
      else words_from (String.append w (String c EmptyString)) s'
  end.

Definition words (s : string) : list string := words_from EmptyString s.

Lemma words_from_sep w a b :
  words_from w (String.append a (String " " b)) = app (words_from w a) (words b).
Proof.
  revert w. induction a as [|c a IH]; intros w; simpl.
  - reflexivity.
  - destruct (is_ws c).
    + rewrite IH, app_assoc. reflexivity.
    + apply IH.
Qed.

Lemma words_sep a b :
  words (String.append a (String " " b)) = app (words a) (words b).
Proof. apply words_from_sep. Qed.

Lemma words_from_cons w c x :
  words_from w (String c x) =
  if is_ws c then app (flush w) (words_from EmptyString x)
  else words_from (String.append w (String c EmptyString)) x.
Proof. reflexivity. Qed.

Lemma words_from_trim_end w s : words_from w (trim_end s) = words_from w s.
Proof.
  revert w. induction s as [|c s IH]; intros w; [reflexivity|].
  simpl trim_end. destruct (trim_end s) as [|c' t] eqn:Et.
  - rewrite words_from_cons, <- !IH.
    destruct (is_ws c) eqn:Hc; cbn [words_from flush]; rewrite ?Hc; [rewrite app_nil_r|]; reflexivity.
  - rewrite (words_from_cons w c (String c' t)), (words_from_cons w c s), !IH. reflexivity.
Qed.

Lemma words_trim_start s : words (trim_start s) = words s.
Proof.
  induction s as [|c s IH]; [reflexivity|]. simpl trim_start.
  destruct (is_ws c) eqn:Hc; [|reflexivity].
  rewrite IH. unfold words. rewrite words_from_cons, Hc. reflexivity.
Qed.

Lemma words_trim s : words (trim s) = words s.
Proof.
  unfold trim, words. rewrite words_from_trim_end. apply words_trim_start.
Qed.

(** ** The claim-side merge

    "trim(join([f(P), C], " ")) with empty parts skipped", on strings. *)
Definition merge_spec (computed caller : string) : string :=
  trim (String.concat " "
    (filter (fun s => negb (String.eqb s "")) [computed; caller])).

(** The caller-supplied class name as a string: "" when absent or falsy. *)
Definition caller_class (props : obj) : string :=
  let v := obj_read props "className" in
  if truthy v then js_to_string v else "".

Lemma number_to_string_nonempty n : number_to_string n <> "".
Proof.
  unfold number_to_string, Z.to_int.
  destruct n as [|p|p]; simpl; [discriminate| |discriminate].
  pose proof (DecimalPos.Unsigned.of_to p) as H.
  destruct (Pos.to_uint p); simpl in *; discriminate.
Qed.

Lemma truthy_to_string v :
  truthy v = true -> js_to_string v <> "".
Proof.
  destruct v as [| |[]|n|s|]; simpl; try discriminate.
  - intros _. apply number_to_string_nonempty.
  - intros H E. rewrite E in H. discriminate.
Qed.

Lemma join_elem_truthy v : truthy v = true -> join_elem v = js_to_string v.
Proof. destruct v; simpl; congruence. Qed.

(** Lines 38-39 compute the claim-side merge of the computed string and
    the caller's class name as read from [domProps]. *)
Lemma merge_class_spec s d : merge_class s d = merge_spec s (caller_class d).
Proof.
  unfold merge_class, merge_spec, caller_class.
  destruct (truthy (obj_read d "className")) eqn:Hv.
  - pose proof (truthy_to_string _ Hv) as Hne.
    apply String.eqb_neq in Hne.
    simpl. rewrite Hv, Hne. simpl.
    destruct (String.eqb s "") eqn:Es; simpl; rewrite (join_elem_truthy _ Hv);
      reflexivity.
  - simpl. destruct (String.eqb s ""); reflexivity.
Qed.

Lemma caller_class_filter filt props :
  caller_class (filter_props filt props) =
  if includes filt "className" then "" else caller_class props.
Proof.
  unfold caller_class, obj_read. rewrite obj_get_filter_props.
  unfold keep. simpl. destruct (includes filt "className"); reflexivity.
Qed.

Lemma words_merge_spec s c :
  words (merge_spec s c) = app (words s) (words c).
Proof.
  unfold merge_spec. simpl.
  destruct (String.eqb s "") eqn:Es; [apply String.eqb_eq in Es; subst s|];
    destruct (String.eqb c "") eqn:Ec; [apply String.eqb_eq in Ec; subst c| |
    apply String.eqb_eq in Ec; subst c|]; simpl.
  - reflexivity.
  - rewrite words_trim. reflexivity.
  - rewrite words_trim. unfold words at 3. simpl. rewrite app_nil_r. reflexivity.
  - rewrite words_trim. apply words_sep.
Qed.

Lemma merge_spec_empty_caller s : merge_spec s "" = trim s.
Proof.
  unfold merge_spec. simpl. destruct (String.eqb_spec s "") as [->|]; reflexivity.
Qed.

(** [computeClassName] instrumented to record each call's argument. *)
Definition logged {W} (f : obj -> M W string) : obj -> M (list obj * W) string :=
  fun props lw =>
    let (r, w') := f props (snd lw) in (r, (props :: fst lw, w')).

(** A compute function without effects that reads no state. *)
Definition pure {W} (f : obj -> M W string) : Prop :=
  exists g : obj -> result string, forall props w, f props w = (g props, w).

(** ** Concrete components used by the witnesses and counterexamples *)

Definition div := Intrinsic "div".

Definition const_class (s : string) : obj -> M unit string := fun _ => ret s.

(** A compute function that reads the internal property [$count]. *)
Definition count_class : obj -> M unit string :=
  fun p => ret (if truthy (obj_read p "$count") then "p-4 has-count" else "p-4").

(** A compute function that throws its argument's [$error] value. *)
Definition throwing_class : obj -> M unit string :=
  fun p w => (Throw (obj_read p "$error"), w).

(** ** Claims *)

(** C1 (corrected).  When "className" is not listed in [propsToFilter],
    the class name handed to the element is
    trim(join([f(P), C] without empty parts, " ")), where C is the
    caller's class name ("" when absent or falsy); its tokens are the
    tokens of f(P) followed by those of C; and when C is absent or empty
    the class name is trim(f(P)), not f(P) itself. *)
Theorem C1_className_merge {W} tag (f : obj -> M W string) filt props ref w s w' :
  f props w = (Ok s, w') ->
  includes filt "className" = false ->
  exists el,
    render (createReactElement tag f filt) props ref w = (Ok el, w') /\
    obj_get (el_props el) "className" = Some (VStr (merge_spec s (caller_class props))) /\
    words (merge_spec s (caller_class props)) = app (words s) (words (caller_class props)) /\
    (caller_class props = "" -> merge_spec s (caller_class props) = trim s).
Proof.
  intros Hf Hfilt. eexists. split; [apply (render_Ok _ _ _ _ _ _ _ _ Hf)|].
  split; [|split].
  - simpl. rewrite obj_get_element_config by apply nodup_keys_filter_props. simpl.
    rewrite merge_class_spec, caller_class_filter, Hfilt. reflexivity.
  - apply words_merge_spec.
  - intros ->. apply merge_spec_empty_caller.
Qed.

Lemma C1_className_merge_witness :
  includes [] "className" = false /\
  exists el,
    render (createReactElement div (const_class "a") []) [("className", VStr "extra")] VNull tt
      = (Ok el, tt) /\
    obj_get (el_props el) "className" = Some (VStr (merge_spec "a" "extra")) /\
    words (merge_spec "a" "extra") = app (words "a") (words "extra") /\
    ("extra" = "" -> merge_spec "a" "extra" = trim "a").
Proof.
  split; [reflexivity|].
  exact (C1_className_merge div (const_class "a") [] [("className", VStr "extra")]
           VNull tt "a" tt eq_refl eq_refl).
Defined.

(** C1 counterexample: with "className" in [propsToFilter] the caller's
    "extra" is not appended, and with no caller class name a computed
    " a" reaches the element as "a", not as f(P) alone. *)
Lemma C1_counterexample :
  match fst (render (createReactElement div (const_class "a") ["className"])
               [("className", VStr "extra")] VNull tt) with
  | Ok el => obj_get (el_props el) "className" <> Some (VStr (merge_spec "a" "extra"))
  | Throw _ => False
  end /\
  match fst (render (createReactElement div (const_class " a") []) [] VNull tt) with
  | Ok el => obj_get (el_props el) "className" <> Some (VStr " a")
  | Throw _ => False
  end.
Proof. vm_compute. split; discriminate. Qed.

(** C2.  Apart from the [className] and [ref] entries that the render
    always sets, a property [k] of the input is absent from the element's
    properties exactly when [k] starts with "$" or is listed in
    [propsToFilter]; a "$"-prefixed property is never forwarded, whatever
    [propsToFilter] is. *)
Theorem C2_filter_partition {W} tag (f : obj -> M W string) filt props ref w s w' :
  f props w = (Ok s, w') ->
  exists el,
    render (createReactElement tag f filt) props ref w = (Ok el, w') /\
    (forall k, k <> "className" -> k <> "ref" ->
       (obj_get (el_props el) k = None <->
        obj_get props k = None \/ startsWith "$" k = true \/ includes filt k = true)) /\
    (forall k, startsWith "$" k = true -> obj_get (el_props el) k = None).
Proof.
  intros Hf. eexists. split; [apply (render_Ok _ _ _ _ _ _ _ _ Hf)|]. simpl.
  split.
  - intros k Hc Hr.
    rewrite obj_get_element_config by apply nodup_keys_filter_props.
    apply String.eqb_neq in Hc, Hr. rewrite Hr, Hc, obj_get_filter_props.
    unfold keep.
    destruct (startsWith "$" k), (includes filt k); simpl; intuition congruence.
  - intros k Hk.
    rewrite obj_get_element_config by apply nodup_keys_filter_props.
    destruct (String.eqb_spec k "ref") as [->|]; [discriminate|].
    destruct (String.eqb_spec k "className") as [->|]; [discriminate|].
    rewrite obj_get_filter_props. unfold keep. rewrite Hk. reflexivity.
Qed.

Lemma C2_filter_partition_witness :
  exists el,
    render (createReactElement div count_class ["size"])
      [("$count", VNum 3); ("size", VStr "lg"); ("id", VStr "x")] VNull tt = (Ok el, tt) /\
    (forall k, k <> "className" -> k <> "ref" ->
       (obj_get (el_props el) k = None <->
        obj_get [("$count", VNum 3); ("size", VStr "lg"); ("id", VStr "x")] k = None \/
        startsWith "$" k = true \/ includes ["size"] k = true)) /\
    (forall k, startsWith "$" k = true -> obj_get (el_props el) k = None).
Proof.
  exact (C2_filter_partition div count_class ["size"]
           [("$count", VNum 3); ("size", VStr "lg"); ("id", VStr "x")]
           VNull tt "p-4 has-count" tt eq_refl).
Defined.

(** C3.  For a pure compute function, two renders with the same
    properties and ref give the same outcome whatever the surrounding
    state, and a render leaves that state unchanged. *)
Theorem C3_render_deterministic {W} tag (f : obj -> M W string) filt
    (Hpure : pure f) props ref w1 w2 :
  fst (render (createReactElement tag f filt) props ref w1) =
  fst (render (createReactElement tag f filt) props ref w2) /\
  snd (render (createReactElement tag f filt) props ref w1) = w1.
Proof.
  destruct Hpure as [g Hg]. simpl. unfold render_fn, bind. rewrite !Hg.
  destruct (g props); split; reflexivity.
Qed.

Lemma C3_render_deterministic_witness :
  pure count_class /\
  fst (render (createReactElement div count_class []) [("$count", VNum 3)] VNull tt) =
  fst (render (createReactElement div count_class []) [("$count", VNum 3)] VNull tt) /\
  snd (render (createReactElement div count_class []) [("$count", VNum 3)] VNull tt) = tt.
Proof.
  assert (Hp : pure count_class).
  { exists (fun p => Ok (if truthy (obj_read p "$count") then "p-4 has-count" else "p-4")).
    intros p w. reflexivity. }
  split; [exact Hp|].
  exact (C3_render_deterministic div count_class [] Hp [("$count", VNum 3)] VNull tt tt).
Defined.

(** C4.  An exception thrown by the compute function is the render's
    outcome, unchanged, with the state exactly as that single call left
    it: no element, no fallback class string, no retry. *)
Theorem C4_throw_propagates {W} tag (f : obj -> M W string) filt props ref w e w' :
  f props w = (Throw e, w') ->
  render (createReactElement tag f filt) props ref w = (Throw e, w').
Proof. apply render_Throw. Qed.

Lemma C4_throw_propagates_witness :
  throwing_class [("$error", VObj 7)] tt = (Throw (VObj 7), tt) /\
  render (createReactElement div throwing_class []) [("$error", VObj 7)] VNull tt =
  (Throw (VObj 7), tt).
Proof.
  split; [reflexivity|].
  apply (C4_throw_propagates div throwing_class [] [("$error", VObj 7)] VNull tt).
  reflexivity.
Defined.

(** C5.  The object handed to [createElement] has no duplicate keys; its
    [ref] entry is the forwarded ref, its [className] entry the merged
    class string, and every other key [k] is present exactly when [k] is a
    pass-through property of the input, with the input's value. *)
Theorem C5_element_props {W} tag (f : obj -> M W string) filt props ref w s w' :
  f props w = (Ok s, w') ->
  exists el,
    render (createReactElement tag f filt) props ref w = (Ok el, w') /\
    el_type el = tag /\
    NoDup (keys (el_props el)) /\
    forall k,
      obj_get (el_props el) k =
      if String.eqb k "ref" then Some ref
      else if String.eqb k "className" then Some (VStr (merge_class s (filter_props filt props)))
      else if keep filt k then obj_get props k else None.
Proof.
  intros Hf. eexists. split; [apply (render_Ok _ _ _ _ _ _ _ _ Hf)|]. simpl.
  split; [reflexivity|]. split; [apply nodup_keys_element_config|].
  intros k. rewrite obj_get_element_config by apply nodup_keys_filter_props.
  rewrite obj_get_filter_props. reflexivity.
Qed.

Lemma C5_element_props_witness :
  exists el,
    render (createReactElement div (const_class "a") [])
      [("id", VStr "x"); ("className", VStr "b")] (VObj 1) tt = (Ok el, tt) /\
    el_type el = div /\
    NoDup (keys (el_props el)) /\
    forall k,
      obj_get (el_props el) k =
      if String.eqb k "ref" then Some (VObj 1)
      else if String.eqb k "className" then
        Some (VStr (merge_class "a" (filter_props [] [("id", VStr "x"); ("className", VStr "b")])))
      else if keep [] k then obj_get [("id", VStr "x"); ("className", VStr "b")] k else None.
Proof.
  exact (C5_element_props div (const_class "a") [] [("id", VStr "x"); ("className", VStr "b")]
           (VObj 1) tt "a" tt eq_refl).
Defined.

(** C6.  Every render that produces an element attaches the forwarded
    ref to it, [null] included. *)
Theorem C6_ref_attached {W} tag (f : obj -> M W string) filt props ref w :
  match fst (render (createReactElement tag f filt) props ref w) with
  | Ok el => obj_get (el_props el) "ref" = Some ref
  | Throw _ => True
  end.
Proof.
  simpl. unfold render_fn, bind.
  destruct (f props w) as [[s|e] w']; simpl; [|exact I].
  rewrite obj_get_element_config by apply nodup_keys_filter_props. reflexivity.
Qed.

(** C7.  The render depends on the compute function only through its
    behaviour on the full incoming property object, and calls it exactly
    once, on that object. *)
Theorem C7_compute_sees_full_props {W} tag (f1 f2 : obj -> M W string) filt props ref w
    (log : list obj) :
  f1 props w = f2 props w ->
  render (createReactElement tag f1 filt) props ref w =
  render (createReactElement tag f2 filt) props ref w /\
  fst (snd (render (createReactElement tag (logged f1) filt) props ref (log, w))) =
  props :: log.
Proof.
  intros Hagree. simpl. unfold render_fn, bind, logged. simpl.
  rewrite Hagree. destruct (f2 props w) as [[s|e] w']; split; reflexivity.
Qed.

Lemma C7_compute_sees_full_props_witness :
  render (createReactElement div (const_class "p-4") ["size"])
    [("$count", VNum 0); ("size", VStr "lg")] VNull tt =
  render (createReactElement div count_class ["size"])
    [("$count", VNum 0); ("size", VStr "lg")] VNull tt /\
  fst (snd (render (createReactElement div (logged (const_class "p-4")) ["size"])
              [("$count", VNum 0); ("size", VStr "lg")] VNull ([], tt))) =
  [[("$count", VNum 0); ("size", VStr "lg")]].
Proof.
  apply (C7_compute_sees_full_props div (const_class "p-4") count_class ["size"]
           [("$count", VNum 0); ("size", VStr "lg")] VNull tt []).
  reflexivity.
Defined.

(** C8 (corrected).  A property named [$count] is handed to the compute
    function with the rest of the incoming properties, and the computed
    class string reaches the element; but [$count] itself is never
    forwarded to the element, whether or not [propsToFilter] lists it,
    because its name starts with "$". *)
Theorem C8_count_not_forwarded {W} tag (f : obj -> M W string) filt props ref w s w' :
  f props w = (Ok s, w') ->
  exists el,
    render (createReactElement tag f filt) props ref w = (Ok el, w') /\
    obj_get (el_props el) "className" = Some (VStr (merge_class s (filter_props filt props))) /\
    obj_get (el_props el) "$count" = None.
Proof.
  intros Hf. eexists. split; [apply (render_Ok _ _ _ _ _ _ _ _ Hf)|]. simpl.
  rewrite !obj_get_element_config by apply nodup_keys_filter_props. simpl.
  split; [reflexivity|]. rewrite obj_get_filter_props. reflexivity.
Qed.

Lemma C8_count_not_forwarded_witness :
  exists el,
    render (createReactElement div count_class []) [("$count", VNum 3)] VNull tt = (Ok el, tt) /\
    obj_get (el_props el) "className" =
      Some (VStr (merge_class "p-4 has-count" (filter_props [] [("$count", VNum 3)]))) /\
    obj_get (el_props el) "$count" = None.
Proof.
  exact (C8_count_not_forwarded div count_class [] [("$count", VNum 3)] VNull tt
           "p-4 has-count" tt eq_refl).
Defined.

(** C8 counterexample: with the static fragment "p-4", [$count = 3] and
    an empty [propsToFilter], the compute function sees [$count] (the
    class reads "p-4 has-count") but the element has no [$count]. *)
Lemma C8_counterexample :
  match fst (render (createReactElement div count_class []) [("$count", VNum 3)] VNull tt) with
  | Ok el =>
      obj_get (el_props el) "className" = Some (VStr "p-4 has-count") /\
      obj_get (el_props el) "$count" = None
  | Throw _ => False
  end.
Proof. vm_compute. split; reflexivity. Qed.

(** C9.  When the computed class string is empty and the caller's class
    name is absent or falsy, the element still receives [className = ""]. *)
Theorem C9_empty_className {W} tag (f : obj -> M W string) filt props ref w w' :
  f props w = (Ok "", w') ->
  caller_class props = "" ->
  exists el,
    render (createReactElement tag f filt) props ref w = (Ok el, w') /\
    obj_get (el_props el) "className" = Some (VStr "").
Proof.
  intros Hf Hc. eexists. split; [apply (render_Ok _ _ _ _ _ _ _ _ Hf)|]. simpl.
  rewrite obj_get_element_config by apply nodup_keys_filter_props. simpl.
  rewrite merge_class_spec, caller_class_filter, Hc.
  destruct (includes filt "className"); reflexivity.
Qed.

Lemma C9_empty_className_witness :
  exists el,
    render (createReactElement div (const_class "") []) [("className", VStr "")] VNull tt
      = (Ok el, tt) /\
    obj_get (el_props el) "className" = Some (VStr "").
Proof.
  exact (C9_empty_className div (const_class "") [] [("className", VStr "")] VNull tt tt
           eq_refl eq_refl).
Defined.

(** C10 (corrected).  When "className" is listed in [propsToFilter], the
    caller's class name is discarded: the element's class name is the
    computed class string with its surrounding white space trimmed. *)
Theorem C10_filtered_className {W} tag (f : obj -> M W string) filt props ref w s w' :
  includes filt "className" = true ->
  f props w = (Ok s, w') ->
  exists el,
    render (createReactElement tag f filt) props ref w = (Ok el, w') /\
    obj_get (el_props el) "className" = Some (VStr (trim s)).
Proof.
  intros Hfilt Hf. eexists. split; [apply (render_Ok _ _ _ _ _ _ _ _ Hf)|]. simpl.
  rewrite obj_get_element_config by apply nodup_keys_filter_props. simpl.
  rewrite merge_class_spec, caller_class_filter, Hfilt, merge_spec_empty_caller.
  reflexivity.
Qed.

Lemma C10_filtered_className_witness :
  exists el,
    render (createReactElement div (const_class "a") ["className"])
      [("className", VStr "extra")] VNull tt = (Ok el, tt) /\
    obj_get (el_props el) "className" = Some (VStr (trim "a")).
Proof.
  exact (C10_filtered_className div (const_class "a") ["className"]
           [("className", VStr "extra")] VNull tt "a" tt eq_refl eq_refl).
Defined.

(** C10 counterexample: a computed " a " with "className" filtered gives
    the element the class name "a", not the computed string itself. *)
Lemma C10_counterexample :
  match fst (render (createReactElement div (const_class " a ") ["className"])
               [("className", VStr "extra")] VNull tt) with
  | Ok el => obj_get (el_props el) "className" <> Some (VStr " a ")
  | Throw _ => False
  end.
Proof. vm_compute. discriminate. Qed.

(** * Further properties of the code *)

(** ** White space trimming *)

Lemma trim_end_idem s : trim_end (trim_end s) = trim_end s.
Proof.
  induction s as [|c s IH]; [reflexivity|]. simpl.
  destruct (trim_end s) as [|c' t] eqn:Et.
  - destruct (is_ws c) eqn:Hc; simpl; [reflexivity|]. rewrite Hc. reflexivity.
  - change (trim_end (String c (String c' t))) with
      (match trim_end (String c' t) with
       | EmptyString => if is_ws c then EmptyString else String c EmptyString
       | t0 => String c t0 end).
    rewrite IH. reflexivity.
Qed.

Lemma trim_start_trim_end s :
  trim_start s = s -> trim_start (trim_end s) = trim_end s.
Proof.
  destruct s as [|c s]; [reflexivity|]. simpl. intros Hs.
  destruct (is_ws c) eqn:Hc.
  - (* trim_start s' = String c s' is impossible: it is shorter *)
    exfalso. assert (Hlen : String.length (trim_start s) <= String.length s).
    { clear. induction s as [|c' s IH]; simpl; [lia|].
      destruct (is_ws c'); simpl; lia. }
    rewrite Hs in Hlen. simpl in Hlen. lia.
  - destruct (trim_end s); simpl; rewrite Hc; reflexivity.
Qed.

Lemma trim_start_idem s : trim_start (trim_start s) = trim_start s.
Proof.
  induction s as [|c s IH]; [reflexivity|]. simpl.
  destruct (is_ws c) eqn:Hc; [exact IH|]. simpl. rewrite Hc. reflexivity.
Qed.

Lemma trim_idem s : trim (trim s) = trim s.
Proof.
  unfold trim. rewrite trim_start_trim_end by apply trim_start_idem.
  apply trim_end_idem.
Qed.

(** ** Key order *)









(** ** Extras on the render *)



(** X2.  The class name handed to the element never starts or ends with
    white space: trimming it again changes nothing. *)
Theorem X2_className_trimmed {W} tag (f : obj -> M W string) filt props ref w :
  match fst (render (createReactElement tag f filt) props ref w) with
  | Ok el => exists c, obj_get (el_props el) "className" = Some (VStr c) /\ trim c = c
  | Throw _ => True
  end.
Proof.
  simpl. unfold render_fn, bind.
  destruct (f props w) as [[s|e] w']; simpl; [|exact I].
  rewrite obj_get_element_config by apply nodup_keys_filter_props. simpl.
  eexists. split; [reflexivity|].
  unfold merge_class. apply trim_idem.
Qed.

(** X3.  With no incoming properties the element receives exactly two
    properties: the trimmed computed class name and the ref. *)
Theorem X3_empty_props {W} tag (f : obj -> M W string) filt ref w s w' :
  f [] w = (Ok s, w') ->
  render (createReactElement tag f filt) [] ref w =
  (Ok (mkElement tag [("className", VStr (trim s)); ("ref", ref)]), w').
Proof.
  intros Hf. rewrite (render_Ok _ _ _ _ _ _ _ _ Hf).
  unfold merge_class, filter_props, element_config, spread, obj_read. simpl.
  destruct (String.eqb_spec s "") as [->|Hs]; reflexivity.
Qed.

Lemma X3_empty_props_witness :
  render (createReactElement div (const_class " p-4 ") ["size"]) [] (VObj 2) tt =
  (Ok (mkElement div [("className", VStr (trim " p-4 ")); ("ref", VObj 2)]), tt).
Proof. apply (X3_empty_props div (const_class " p-4 ") ["size"] (VObj 2) tt). reflexivity. Defined.

Lemma obj_get_filter_keys (p : string -> bool) o k :
  obj_get (filter (fun kv => p (fst kv)) o) k = if p k then obj_get o k else None.
Proof.
  induction o as [|[k0 v0] o IH]; simpl; [destruct (p k); reflexivity|].
  destruct (String.eqb_spec k k0) as [->|Hne].
  - destruct (p k0); simpl; [rewrite String.eqb_refl; reflexivity|exact IH].
  - destruct (p k0); simpl; [|exact IH].
    destruct (String.eqb_spec k k0); [congruence|exact IH].
Qed.

Lemma dollar_not_forwarded filt d fc ref k :
  startsWith "$" k = true ->
  obj_get (element_config (filter_props filt d) fc ref) k = None.
Proof.
  intros Hk. rewrite obj_get_element_config by apply nodup_keys_filter_props.
  destruct (String.eqb_spec k "ref") as [->|]; [discriminate|].
  destruct (String.eqb_spec k "className") as [->|]; [discriminate|].
  rewrite obj_get_filter_props. unfold keep. rewrite Hk. reflexivity.
Qed.

(** X4.  When a component built by [createReactElement] wraps another
    one (its [tag] is that component) and React renders the inner one
    from the outer's element: the inner element gets the caller's ref;
    its class tokens are the inner computed tokens, then the outer
    computed tokens, then the caller's; and no "$"-prefixed property
    reaches the inner compute function or the inner element. *)
Theorem X4_nested_render {W} id tag (f1 f2 : obj -> M W string) filt1 filt2
    props ref w s1 w1 :
  ref <> VUndef ->
  includes filt1 "className" = false ->
  includes filt2 "className" = false ->
  f1 props w = (Ok s1, w1) ->
  exists el1,
    render (createReactElement (Component id) f1 filt1) props ref w = (Ok el1, w1) /\
    (forall k, startsWith "$" k = true -> obj_get (element_render_props el1) k = None) /\
    forall s2 w2,
      f2 (element_render_props el1) w1 = (Ok s2, w2) ->
      exists el2 c,
        render_element (createReactElement tag f2 filt2) el1 w1 = (Ok el2, w2) /\
        obj_get (el_props el2) "ref" = Some ref /\
        obj_get (el_props el2) "className" = Some (VStr c) /\
        words c = app (words s2) (app (words s1) (words (caller_class props))) /\
        (forall k, startsWith "$" k = true -> obj_get (el_props el2) k = None).
Proof.
  intros Href Hfilt1 Hfilt2 Hf1. eexists. split; [apply (render_Ok _ _ _ _ _ _ _ _ Hf1)|].
  split.
  - intros k Hk. unfold element_render_props. simpl.
    rewrite (obj_get_filter_keys (fun k => negb (react_reserved k))).
    rewrite dollar_not_forwarded by exact Hk.
    destruct (negb (react_reserved k)); reflexivity.
  - intros s2 w2 Hf2. unfold render_element.
    assert (Hr : element_ref (mkElement (Component id)
                   (element_config (filter_props filt1 props)
                      (merge_class s1 (filter_props filt1 props)) ref)) = ref).
    { unfold element_ref. simpl.
      rewrite obj_get_element_config by apply nodup_keys_filter_props. simpl.
      destruct ref; congruence. }
    rewrite Hr, (render_Ok _ _ _ _ _ _ _ _ Hf2).
    do 2 eexists. split; [reflexivity|]. simpl.
    rewrite !obj_get_element_config by apply nodup_keys_filter_props. simpl.
    split; [reflexivity|]. split; [reflexivity|]. split.
    + rewrite merge_class_spec, caller_class_filter, Hfilt2, words_merge_spec.
      f_equal.
      unfold caller_class at 1, obj_read, element_render_props. simpl.
      rewrite (obj_get_filter_keys (fun k => negb (react_reserved k))). simpl.
      rewrite obj_get_element_config by apply nodup_keys_filter_props. simpl.
      rewrite merge_class_spec, caller_class_filter, Hfilt1.
      destruct (negb (String.eqb (merge_spec s1 (caller_class props)) "")) eqn:Ht;
        simpl; [apply words_merge_spec|].
      apply negb_false_iff, String.eqb_eq in Ht. rewrite <- words_merge_spec, Ht.
      reflexivity.
    + intros k Hk. apply dollar_not_forwarded, Hk.
Qed.

Lemma X4_nested_render_witness :
  VObj 1 <> VUndef /\
  exists el1,
    render (createReactElement (Component 0) (const_class "mt-5") [])
      [("$active", VBool true); ("className", VStr "extra")] (VObj 1) tt = (Ok el1, tt) /\
    (forall k, startsWith "$" k = true -> obj_get (element_render_props el1) k = None) /\
    forall s2 w2,
      const_class "text-lg" (element_render_props el1) tt = (Ok s2, w2) ->
      exists el2 c,
        render_element (createReactElement (Intrinsic "button") (const_class "text-lg") [])
          el1 tt = (Ok el2, w2) /\
        obj_get (el_props el2) "ref" = Some (VObj 1) /\
        obj_get (el_props el2) "className" = Some (VStr c) /\
        words c = app (words s2) (app (words "mt-5")
                    (words (caller_class [("$active", VBool true); ("className", VStr "extra")]))) /\
        (forall k, startsWith "$" k = true -> obj_get (el_props el2) k = None).
Proof.
  split; [discriminate|].
  apply (X4_nested_render 0 (Intrinsic "button") (const_class "mt-5") (const_class "text-lg")
           [] [] [("$active", VBool true); ("className", VStr "extra")] (VObj 1) tt "mt-5" tt);
    [discriminate|reflexivity|reflexivity|reflexivity].
Defined.

(** ** postbuild.js *)

(** [pat] occurs in [s]. *)
Fixpoint occurs (pat s : string) : bool :=
  String.prefix pat s ||
  match s with EmptyString => false | String _ s' => occurs pat s' end.

(** No occurrence of [pat] in [a ++ pat ++ b] starts inside [a]. *)
Fixpoint first_at_end (pat a b : string) : bool :=
  match a with
  | EmptyString => true
  | String _ a' => negb (String.prefix pat (a ++ pat ++ b)) && first_at_end pat a' b
  end.

Lemma replace_first_eq pat rep s :
  replace_first pat rep s =
  if String.prefix pat s then rep ++ str_drop (String.length pat) s
  else match s with
       | EmptyString => EmptyString
       | String c s' => String c (replace_first pat rep s')
       end.
Proof. destruct s; reflexivity. Qed.

Lemma prefix_self_app p r : String.prefix p (p ++ r) = true.
Proof.
  induction p as [|c p IH]; simpl; [destruct r; reflexivity|].
  destruct (ascii_dec c c); [exact IH|congruence].
Qed.

Lemma str_drop_app p r : str_drop (String.length p) (p ++ r) = r.
Proof. induction p as [|c p IH]; simpl; [reflexivity|exact IH]. Qed.

Lemma prefix_true_app p s :
  String.prefix p s = true -> s = p ++ str_drop (String.length p) s.
Proof.
  revert s. induction p as [|c p IH]; intros s H; [reflexivity|].
  destruct s as [|c' s]; simpl in H; [discriminate|].
  destruct (ascii_dec c c') as [->|]; [|discriminate].
  simpl. f_equal. apply IH, H.
Qed.







(** X7.  [replace_first] replaces the first occurrence of the pattern
    and only that one. *)
Theorem X7_replace_first_occurrence pat rep a b :
  first_at_end pat a b = true ->
  replace_first pat rep (a ++ pat ++ b) = a ++ rep ++ b.
Proof.
  induction a as [|c a IH]; intros H.
  - change (replace_first pat rep (pat ++ b) = rep ++ b).
    rewrite replace_first_eq, prefix_self_app, str_drop_app. reflexivity.
  - cbn [first_at_end] in H. apply andb_true_iff in H as [Hp Ha].
    apply negb_true_iff in Hp.
    rewrite replace_first_eq, Hp. cbn [String.append]. f_equal. apply IH, Ha.
Qed.

Lemma X7_replace_first_occurrence_witness :
  replace_first decl_pat decl_rep
    ("export {};" ++ decl_pat ++ " R; " ++ decl_pat ++ " S;") =
  "export {};" ++ decl_rep ++ " R; " ++ decl_pat ++ " S;".
Proof. apply X7_replace_first_occurrence. reflexivity. Defined.

Lemma replace_first_absent pat rep s :
  occurs pat s = false -> replace_first pat rep s = s.
Proof.
  induction s as [|c s IH]; intros H; cbn [occurs] in H;
    apply orb_false_iff in H as [Hp Hs]; rewrite replace_first_eq, Hp;
    [reflexivity|]. f_equal. apply IH, Hs.
Qed.

(** X8.  Content in which neither pattern occurs (for example content
    the script has already patched) is left unchanged by the patch. *)
Theorem X8_patch_without_patterns c :
  occurs decl_pat c = false ->
  occurs export_pat c = false ->
  patch_content c = c.
Proof.
  intros H1 H2. unfold patch_content.
  rewrite (replace_first_absent _ _ _ H1). apply replace_first_absent, H2.
Qed.

Lemma X8_patch_without_patterns_witness :
  patch_content (decl_rep ++ " X; " ++ export_rep) = decl_rep ++ " X; " ++ export_rep.
Proof. apply X8_patch_without_patterns; reflexivity. Defined.
